(** * The training-loop orchestrator of [src/trainers/trainer.py]

    A shallow embedding of class [Trainer]: the learning-rate schedule
    [_get_lr], the optimizer factory [_get_optimizer], the gradient
    accumulation loop and the epoch/iteration driver [train].

    Numbers.  Python [int] is [Z].  The code is modelled twice where
    numbers matter.  The first model takes Python [float] and the scalar
    loss tensors as the real numbers of the Standard Library: exact
    arithmetic, used for control flow, exceptions and the order of
    effects.  The second model, module [B64] and the tensor loop after
    it, computes in binary floating point as the interpreter does
    (IEEE 754, round to nearest even, through [SpecFloat]); what depends
    on rounding is stated there.

    Exceptions.  A call either returns a value or raises; the exceptions
    the modelled code can raise are listed in [exn]. *)

From Stdlib Require Import ZArith Reals Lra Lia List String Bool Permutation.
From Stdlib Require Import Floats.SpecFloat.
Import ListNotations.

Open Scope Z_scope.

(** ** Python runtime pieces used by the class *)

Module Py.

Inductive exn : Type :=
| TypeError
| AttributeError
| ZeroDivisionError
| AssertionError
| OverflowError.

Inductive result (A : Type) : Type :=
| Ok (a : A)
| Raise (e : exn).

Arguments Ok {A} a.
Arguments Raise {A} e.

Definition bind {A B : Type} (r : result A) (k : A -> result B) : result B :=
  match r with
  | Ok a => k a
  | Raise e => Raise e
  end.

(** [range(n)]: the integers [0, 1, ..., n-1], empty when [n <= 0]. *)
Definition range (n : Z) : list Z := map Z.of_nat (seq 0 (Z.to_nat n)).

(** The objects a [for] statement of [train] iterates over. *)
Inductive object : Type :=
| Int (n : Z)
| Range (n : Z).

(** [iter(o)], evaluated once when a [for] loop starts: a range yields
    its elements, an [int] is not iterable. *)
Definition iter (o : object) : result (list Z) :=
  match o with
  | Range n => Ok (range n)
  | Int _ => Raise TypeError
  end.

(** True division [x / d] of a float by an int ([int / int] converts
    the numerator first). *)
Definition truediv (x : R) (d : Z) : result R :=
  if d =? 0 then Raise ZeroDivisionError else Ok (x / IZR d)%R.

(** Comparison [x <= y] of two floats, as a boolean. *)
Definition le (x y : R) : bool := if Rle_dec x y then true else false.

(** [assert c]. *)
Definition assert (c : bool) : result unit :=
  if c then Ok tt else Raise AssertionError.

End Py.

Import Py.

Declare Scope py_scope.
Delimit Scope py_scope with py.
Notation "x <- c1 ;; c2" := (Py.bind c1 (fun x => c2))
  (at level 100, c1 at next level, right associativity) : py_scope.

Declare Scope io_scope.
Delimit Scope io_scope with io.

(** ** The trainer object *)

Inductive device_kind : Type := Cuda | Cpu.

(** A parameter tensor, as far as the trainer looks at it: [p.dim()],
    [p.numel()] and [p.requires_grad]. *)
Record Tensor : Type := {
  dim : nat;
  numel : nat;
  requires_grad : bool
}.

(** The attributes of a [Trainer], as [__init__] leaves them, that the
    methods below read.  [raw_model] holds what
    [raw_model.named_parameters()] enumerates, [None] being the
    constructor's default.  The model, the loaders and the process group
    act through [Runtime] and [World] below. *)
Record Trainer : Type := {
  raw_model : option (list (string * Tensor));
  n_epochs : Z;
  warmup_iters : Z;
  max_iters : Z;
  grad_accum_iters : Z;
  max_lr : R;
  min_lr : R;
  use_ddp : bool;
  device_type : device_kind;
  ddp_world_size : Z;
  main_process : bool
}.

(** ** The learning-rate schedule, [Trainer._get_lr] *)

Definition decay_ratio (self : Trainer) (iter : Z) : result R :=
  truediv (IZR (iter - warmup_iters self)) (max_iters self - warmup_iters self).

Definition _get_lr (self : Trainer) (iter : Z) : result R :=
  if iter <? warmup_iters self then
    truediv (max_lr self * IZR (iter + 1)) (warmup_iters self)
  else if iter >? max_iters self then
    Ok (min_lr self)
  else
    (ratio <- decay_ratio self iter ;;
     _ <- assert (le 0 ratio && le ratio 1) ;;
     let coeff := (0.5 * (1 + cos (PI * ratio)))%R in
     Ok (min_lr self + coeff * (max_lr self - min_lr self))%R)%py.

(** The constructor's default arguments, on one CPU process. *)
Definition default_Trainer : Trainer := {|
  raw_model := None;
  n_epochs := 1;
  warmup_iters := 715;
  max_iters := 19073;
  grad_accum_iters := 1;
  max_lr := 6e-4;
  min_lr := 6e-3;
  use_ddp := false;
  device_type := Cpu;
  ddp_world_size := 1;
  main_process := true
|}.

(** A trainer that differs from the default one in its schedule only. *)
Definition with_schedule (warmup maxit : Z) (hi lo : R) : Trainer := {|
  raw_model := raw_model default_Trainer;
  n_epochs := n_epochs default_Trainer;
  warmup_iters := warmup;
  max_iters := maxit;
  grad_accum_iters := grad_accum_iters default_Trainer;
  max_lr := hi;
  min_lr := lo;
  use_ddp := use_ddp default_Trainer;
  device_type := device_type default_Trainer;
  ddp_world_size := ddp_world_size default_Trainer;
  main_process := main_process default_Trainer
|}.

(** The configuration of the specification's end-to-end scenario. *)
Definition scenario : Trainer := with_schedule 2 10 0.1 0.01.

(** ** The optimizer factory, [Trainer._get_optimizer] *)

(** A [dict] with string keys: one value per key, in insertion order;
    storing under a key that is present replaces its value in place. *)
Fixpoint dict_set {V : Type} (d : list (string * V)) (k : string) (v : V)
  : list (string * V) :=
  match d with
  | [] => [(k, v)]
  | (k', v') :: d' =>
      if String.eqb k' k then (k', v) :: d' else (k', v') :: dict_set d' k v
  end.

(** The comprehension [{k: v for k, v in items}]. *)
Definition dict_of_items {V : Type} (items : list (string * V)) : list (string * V) :=
  fold_left (fun d kv => dict_set d (fst kv) (snd kv)) items [].

(** One entry of [optimizer.param_groups]. *)
Record param_group : Type := {
  params : list Tensor;
  weight_decay : R;
  lr : R
}.

(** What [torch.optim.AdamW(groups, lr, betas, eps, fused)] holds: every
    group that has no rate of its own receives the base rate.  The
    argument validation of the library is outside the repository. *)
Record Optimizer : Type := {
  param_groups : list param_group;
  betas : R * R;
  eps : R;
  fused : bool
}.

(** What the trainer calls and cannot compute itself. *)
Record Runtime : Type := {
  (** ['fused' in inspect.signature(torch.optim.AdamW).parameters] *)
  fused_available : bool;
  (** the loss [F.cross_entropy(model(x, y), y)] on the [k]-th batch
      drawn during the run *)
  forward_loss : nat -> R;
  (** what [dist.all_reduce(v, op=AVG)] leaves in [v] on this worker *)
  all_reduce_avg : R -> R
}.

(** [param_dict] after both comprehensions of lines 240-241. *)
Definition param_dict (named_parameters : list (string * Tensor))
  : list (string * Tensor) :=
  let param_dict := dict_of_items named_parameters in
  dict_of_items (filter (fun kv => requires_grad (snd kv)) param_dict).

Definition decay_params (param_dict : list (string * Tensor)) : list Tensor :=
  map snd (filter (fun kv => (2 <=? dim (snd kv))%nat) param_dict).

Definition nodecay_params (param_dict : list (string * Tensor)) : list Tensor :=
  map snd (filter (fun kv => (dim (snd kv) <? 2)%nat) param_dict).

Definition device_is_cuda (d : device_kind) : bool :=
  match d with Cuda => true | Cpu => false end.

Definition _get_optimizer (rt : Runtime) (self : Trainer)
    (weight_decay learning_rate : R) : result Optimizer :=
  match raw_model self with
  | None => Raise AttributeError
  | Some named_parameters =>
      let param_dict := param_dict named_parameters in
      let decay_params := decay_params param_dict in
      let nodecay_params := nodecay_params param_dict in
      let optim_groups :=
        [ {| params := decay_params; weight_decay := weight_decay;
             lr := learning_rate |};
          {| params := nodecay_params; weight_decay := 0;
             lr := learning_rate |} ] in
      let use_fused := fused_available rt && device_is_cuda (device_type self) in
      Ok {| param_groups := optim_groups;
            betas := (0.9, 0.95)%R;
            eps := 1e-8;
            fused := use_fused |}
  end.

(** ** The mutable world of a training run *)

(** What a run does to its collaborators, in the order it does it. *)
Inductive event : Type :=
| Reset                         (* train_loader.reset() *)
| ModelTrain                    (* model.train() *)
| ZeroGrad                      (* optimizer.zero_grad() *)
| NextBatch (pos : nat)         (* train_loader.next_batch() at position pos *)
| GradSync (flag : bool)        (* model.require_backward_grad_sync = flag *)
| Backward (loss : R)           (* loss.backward() *)
| AllReduce                     (* dist.all_reduce(accumulated_loss, AVG) *)
| ClipGradNorm                  (* clip_grad_norm_(model.parameters(), 1.0) *)
| Step (lrs : list R)           (* optimizer.step(), with the groups' rates *)
| Validate
| Evaluate
| Log (e it : Z) (loss : R).    (* the line appended to log.txt *)

Record World : Type := {
  cursor : nat;                 (* read position of the train loader *)
  drawn : nat;                  (* batches drawn since the run began *)
  groups : list param_group;    (* optimizer.param_groups, shared and mutable *)
  trace : list event
}.

(** Statements: they change the world and return or raise. *)
Definition M (A : Type) : Type := World -> result A * World.

Definition ret {A : Type} (a : A) : M A := fun w => (Ok a, w).

Definition mbind {A B : Type} (m : M A) (k : A -> M B) : M B :=
  fun w =>
    match m w with
    | (Ok a, w') => k a w'
    | (Raise e, w') => (Raise e, w')
    end.

Notation "x <- c1 ;; c2" := (mbind c1 (fun x => c2))
  (at level 100, c1 at next level, right associativity) : io_scope.

Definition lift {A : Type} (r : result A) : M A := fun w => (r, w).

Definition emit (ev : event) : M unit :=
  fun w => (Ok tt, {| cursor := cursor w; drawn := drawn w;
                      groups := groups w; trace := trace w ++ [ev] |}).

Definition set_groups (gs : list param_group) : M unit :=
  fun w => (Ok tt, {| cursor := cursor w; drawn := drawn w;
                      groups := gs; trace := trace w |}).

Definition get_groups : M (list param_group) := fun w => (Ok (groups w), w).

(** Modelled from the spec: the batch source, whose code
    ([src/dataset/dataloader.py]) is not among the sources.
    [next_batch()] can be called indefinitely; [cursor] counts the calls
    since the last [reset()], and which batch the source hands out at
    that count, cycling or reshuffling, is its own business.  The value
    returned here is the index of the call within the run, under which
    [forward_loss] knows the batch. *)
Definition next_batch : M nat :=
  fun w => (Ok (drawn w),
            {| cursor := S (cursor w); drawn := S (drawn w);
               groups := groups w; trace := trace w ++ [NextBatch (cursor w)] |}).

(** Modelled from the spec: [reset()] of the batch source rewinds its
    read position to the start. *)
Definition reset : M unit :=
  fun w => (Ok tt, {| cursor := 0; drawn := drawn w;
                      groups := groups w; trace := trace w ++ [Reset] |}).

(** [for x in xs: body(x)]. *)
Fixpoint for_each {X : Type} (xs : list X) (body : X -> M unit) : M unit :=
  match xs with
  | [] => ret tt
  | x :: xs' => (_ <- body x ;; for_each xs' body)%io
  end.

(** A [for] loop whose body updates one local variable. *)
Fixpoint for_fold {X A : Type} (xs : list X) (body : A -> X -> M A) (a : A) : M A :=
  match xs with
  | [] => ret a
  | x :: xs' => (a' <- body a x ;; for_fold xs' body a')%io
  end.

(** ** Attribute lookup on the trainer *)

(** The names bound on a [Trainer]: the attributes [__init__] and the
    two setup methods assign, and the methods of the class body. *)
Definition Trainer_members : list string :=
  [ "model"; "raw_model"; "n_epochs"; "train_loader"; "val_loader";
    "warmup_iters"; "max_iters"; "grad_accum_iters"; "max_lr"; "min_lr";
    "use_ddp"; "monitor"; "log_dir"; "log_file"; "device"; "ddp_rank";
    "ddp_local_rank"; "ddp_world_size"; "main_process"; "device_type";
    "__init__"; "_setup_device"; "_setup_ddp"; "train";
    "adjust_optimizer_lr"; "_on_epoch_begin"; "validate"; "evaluate";
    "_get_lr"; "_get_optimizer" ]%string.

(** [getattr(self, name)(iter)]: an unbound name raises
    [AttributeError]; [_get_lr] is the one member that takes exactly one
    integer, calling any other member this way is a [TypeError]. *)
Definition call_with_iter (name : string) (self : Trainer) (iter : Z) : result R :=
  if negb (existsb (String.eqb name) Trainer_members) then Raise AttributeError
  else if String.eqb name "_get_lr" then _get_lr self iter
  else Raise TypeError.

(** ** The training loop, [Trainer.train] *)

Definition set_lr (v : R) (g : param_group) : param_group :=
  {| params := params g; weight_decay := weight_decay g; lr := v |}.

(** [adjust_optimizer_lr(optimizer, iter)], the optimizer being the one
    whose groups the world holds. *)
Definition adjust_optimizer_lr (self : Trainer) (iter : Z) : M R :=
  (lr <- lift (call_with_iter "get_lr" self iter) ;;
   gs <- get_groups ;;
   _ <- set_groups (map (set_lr lr) gs) ;;
   ret lr)%io.

Definition _on_epoch_begin : M unit := reset.

Definition validate : M unit := emit Validate.

Definition evaluate : M unit := emit Evaluate.

Definition optimizer_step : M unit :=
  (gs <- get_groups ;; emit (Step (map lr gs)))%io.

(** The body of the micro-batch loop, lines 138-149. *)
Definition micro_step (rt : Runtime) (self : Trainer)
    (accumulated_loss : R) (micro_iter : Z) : M R :=
  (k <- next_batch ;;
   _ <- (if use_ddp self
         then emit (GradSync (micro_iter =? grad_accum_iters self - 1))
         else ret tt) ;;
   let loss := forward_loss rt k in
   let loss := (loss / IZR (grad_accum_iters self))%R in
   let accumulated_loss := (accumulated_loss + loss)%R in
   _ <- emit (Backward loss) ;;
   ret accumulated_loss)%io.

(** Lines 135-149: the accumulator starts at [0.0] and the micro-batch
    loop runs over [range(grad_accum_iters)]. *)
Definition accumulate (rt : Runtime) (self : Trainer) : M R :=
  let accumulated_loss := 0%R in
  (micro_iters <- lift (iter (Range (grad_accum_iters self))) ;;
   for_fold micro_iters (micro_step rt self) accumulated_loss)%io.

(** The body of the iteration loop, lines 131-179.  Wall-clock timing,
    device synchronisation and console output are left out. *)
Definition iteration (rt : Runtime) (self : Trainer) (e it : Z) : M unit :=
  (_ <- emit ModelTrain ;;
   _ <- emit ZeroGrad ;;
   accumulated_loss <- accumulate rt self ;;
   accumulated_loss <- (if use_ddp self
                        then (_ <- emit AllReduce ;;
                              ret (all_reduce_avg rt accumulated_loss))
                        else ret accumulated_loss) ;;
   _ <- emit ClipGradNorm ;;
   lr <- adjust_optimizer_lr self it ;;
   _ <- optimizer_step ;;
   let is_last_step := it =? max_iters self - 1 in
   _ <- (if (it mod 500 =? 0) || is_last_step
         then (_ <- validate ;; evaluate)
         else ret tt) ;;
   if main_process self then emit (Log e it accumulated_loss) else ret tt)%io.

Definition train (rt : Runtime) (self : Trainer) : M unit :=
  (optimizer <- lift (_get_optimizer rt self 0.1 6e-4) ;;
   _ <- set_groups (param_groups optimizer) ;;
   epochs <- lift (iter (Int (n_epochs self))) ;;
   for_each epochs (fun e =>
     _ <- _on_epoch_begin ;;
     iters <- lift (iter (Range (max_iters self))) ;;
     for_each iters (fun it => iteration rt self e it)))%io.

(** ** Reading a trace *)

Definition grad_sync_flags (tr : list event) : list bool :=
  flat_map (fun ev => match ev with GradSync b => [b] | _ => [] end) tr.

Definition backward_losses (tr : list event) : list R :=
  flat_map (fun ev => match ev with Backward l => [l] | _ => [] end) tr.

Definition is_step (ev : event) : bool :=
  match ev with Step _ => true | _ => false end.

Definition is_reset (ev : event) : bool :=
  match ev with Reset => true | _ => false end.

Definition is_zero_grad (ev : event) : bool :=
  match ev with ZeroGrad => true | _ => false end.

(** Epochs begun and iterations begun, read off a trace. *)
Definition epochs_begun (tr : list event) : nat := List.length (filter is_reset tr).

Definition iterations_begun (tr : list event) : nat := List.length (filter is_zero_grad tr).

Fixpoint Rsum (xs : list R) : R :=
  match xs with
  | [] => 0%R
  | x :: xs' => (x + Rsum xs')%R
  end.

(** The losses the micro-batches [k, k+1, ..., k+m-1] of the run
    backpropagate: each forward loss divided by [grad_accum_iters]. *)
Definition scaled_losses (rt : Runtime) (self : Trainer) (k m : nat) : list R :=
  map (fun j => (forward_loss rt j / IZR (grad_accum_iters self))%R) (seq k m).

(** ** Sample objects *)

Definition tiny_model : list (string * Tensor) :=
  [ ("wte.weight"%string, {| dim := 2; numel := 64; requires_grad := true |});
    ("ln_f.weight"%string, {| dim := 1; numel := 8; requires_grad := true |});
    ("ln_f.bias"%string, {| dim := 1; numel := 8; requires_grad := false |}) ].

(** Two workers, four micro-batches per iteration, the schedule of the
    end-to-end scenario. *)
Definition ddp_Trainer : Trainer := {|
  raw_model := Some tiny_model;
  n_epochs := 1;
  warmup_iters := 2;
  max_iters := 10;
  grad_accum_iters := 4;
  max_lr := 0.1;
  min_lr := 0.01;
  use_ddp := true;
  device_type := Cuda;
  ddp_world_size := 2;
  main_process := true
|}.

Definition sample_Runtime : Runtime := {|
  fused_available := true;
  forward_loss := fun k => INR (S k);
  all_reduce_avg := fun v => v
|}.

Definition fresh_World : World :=
  {| cursor := 0; drawn := 0; groups := []; trace := [] |}.

(** ** Python floats: the schedule in binary64 *)

Module B64.

Definition prec : Z := 53.
Definition emax : Z := 1024.

Definition add : spec_float -> spec_float -> spec_float := SFadd prec emax.
Definition sub : spec_float -> spec_float -> spec_float := SFsub prec emax.
Definition mul : spec_float -> spec_float -> spec_float := SFmul prec emax.
Definition div : spec_float -> spec_float -> spec_float := SFdiv prec emax.

(** An integer as an unrounded binary number; the operations round
    their exact result, whatever the size of the operands. *)
Definition exact_int (z : Z) : spec_float :=
  match z with
  | Z0 => S754_zero false
  | Zpos p => S754_finite false p 0
  | Zneg p => S754_finite true p 0
  end.

(** The float a decimal literal [a / b] denotes, e.g. [6e-4] is
    [decimal 6 10000]: the nearest binary64 number. *)
Definition decimal (a b : Z) : spec_float := div (exact_int a) (exact_int b).

Definition zero : spec_float := S754_zero false.
Definition one : spec_float := S754_finite false 4503599627370496 (-52).
Definition half : spec_float := S754_finite false 4503599627370496 (-53).
(** [math.pi], [0x1.921fb54442d18p+1]. *)
Definition pi : spec_float := S754_finite false 7074237752028440 (-51).

(** [float(z)] as the arithmetic operators convert an [int] operand:
    the nearest float, ties to even; [OverflowError] beyond the range. *)
Definition float_of_int (z : Z) : result spec_float :=
  match binary_normalize prec emax z 0 false with
  | S754_infinity _ => Raise OverflowError
  | x => Ok x
  end.

(** [a / b] on two ints: the correctly rounded quotient. *)
Definition int_truediv (a b : Z) : result spec_float :=
  if b =? 0 then Raise ZeroDivisionError
  else match div (exact_int a) (exact_int b) with
       | S754_infinity _ => Raise OverflowError
       | q => Ok q
       end.

(** [x / b], a float by an int: the int is converted first; the
    converted divisor is [0.0] exactly when the int is 0. *)
Definition float_truediv_int (x : spec_float) (b : Z) : result spec_float :=
  (d <- float_of_int b ;;
   if b =? 0 then Raise ZeroDivisionError else Ok (div x d))%py.

(** What the C library contributes: [math.cos].  Of its values only
    [cos(+0) = 1], which the C standard fixes, is relied upon. *)
Record Libm : Type := {
  cos : spec_float -> spec_float;
  cos_zero : cos zero = one
}.

(** The four attributes the schedule reads. *)
Record Schedule : Type := {
  warmup_iters : Z;
  max_iters : Z;
  max_lr : spec_float;
  min_lr : spec_float
}.

Definition decay_ratio (s : Schedule) (iter : Z) : result spec_float :=
  int_truediv (iter - warmup_iters s) (max_iters s - warmup_iters s).

Definition _get_lr (libm : Libm) (s : Schedule) (iter : Z) : result spec_float :=
  if iter <? warmup_iters s then
    (x <- float_of_int (iter + 1) ;;
     float_truediv_int (mul (max_lr s) x) (warmup_iters s))%py
  else if iter >? max_iters s then
    Ok (min_lr s)
  else
    (ratio <- decay_ratio s iter ;;
     _ <- assert (SFleb zero ratio && SFleb ratio one) ;;
     let coeff := mul half (add one (cos libm (mul pi ratio))) in
     Ok (add (min_lr s) (mul coeff (sub (max_lr s) (min_lr s)))))%py.

(** The constructor's default schedule. *)
Definition defaults : Schedule := {|
  warmup_iters := 715;
  max_iters := 19073;
  max_lr := decimal 6 10000;
  min_lr := decimal 6 1000
|}.

(** The schedule of the specification's end-to-end scenario. *)
Definition scenario : Schedule := {|
  warmup_iters := 2;
  max_iters := 10;
  max_lr := decimal 1 10;
  min_lr := decimal 1 100
|}.



(** A cosine for running examples: right at zero, where the standard
    fixes it, and at [math.pi]; not a number elsewhere. *)
Definition table_cos (x : spec_float) : spec_float :=
  match x with
  | S754_zero _ => one
  | S754_finite false 7074237752028440 (-51) => SFopp one
  | _ => S754_nan
  end.

Definition table_libm : Libm := {| cos := table_cos; cos_zero := eq_refl |}.

End B64.


(** The boundary claim read in binary64: the rate at
    [iteration = warmup_iters] is [max_lr] itself. *)
Definition boundary_is_max_lr_b64 : Prop :=
  forall (libm : B64.Libm) (s : B64.Schedule),
    B64.warmup_iters s < B64.max_iters s ->
    B64._get_lr libm s (B64.warmup_iters s) = Ok (B64.max_lr s).


(** ** Scalar loss tensors: the accumulation loop in their arithmetic *)

(** What torch computes on scalar tensors of type [T].  The rounding of
    these operations belongs to the library and the device. *)
Record TensorOps (T : Type) : Type := {
  (** [t / n], [n] a Python int *)
  tensor_div_int : T -> Z -> T;
  (** [x + t], [x] a Python float: the result is a tensor *)
  float_add_tensor : spec_float -> T -> T;
  (** [t += u] *)
  tensor_iadd : T -> T -> T
}.

Arguments tensor_div_int {T} _ _ _.
Arguments float_add_tensor {T} _ _ _.
Arguments tensor_iadd {T} _ _ _.

(** [accumulated_loss]: the Python float [0.0] until the first [+=]
    turns it into a tensor. *)
Inductive accumulator (T : Type) : Type :=
| AccFloat (x : spec_float)
| AccTensor (t : T).

Arguments AccFloat {T} x.
Arguments AccTensor {T} t.

(** [accumulated_loss += loss.detach()]. *)
Definition acc_iadd {T : Type} (ops : TensorOps T) (a : accumulator T) (t : T)
  : accumulator T :=
  match a with
  | AccFloat x => AccTensor (float_add_tensor ops x t)
  | AccTensor u => AccTensor (tensor_iadd ops u t)
  end.

Inductive tevent (T : Type) : Type :=
| TNextBatch
| TGradSync (flag : bool)
| TBackward (loss : T).

Arguments TNextBatch {T}.
Arguments TGradSync {T} flag.
Arguments TBackward {T} loss.

Record TWorld (T : Type) : Type := {
  t_drawn : nat;
  t_trace : list (tevent T)
}.

Arguments t_drawn {T} _.
Arguments t_trace {T} _.

(** The body of the micro-batch loop, lines 138-149, [forward] giving
    the loss tensor of the [k]-th batch drawn. *)
Definition micro_step_t {T : Type} (ops : TensorOps T) (forward : nat -> T)
    (self : Trainer) (accumulated_loss : accumulator T) (micro_iter : Z)
    (w : TWorld T) : accumulator T * TWorld T :=
  let k := t_drawn w in
  let tr := t_trace w ++ [TNextBatch] in
  let tr := if use_ddp self
            then tr ++ [TGradSync (micro_iter =? grad_accum_iters self - 1)]
            else tr in
  let loss := forward k in
  let loss := tensor_div_int ops loss (grad_accum_iters self) in
  let accumulated_loss := acc_iadd ops accumulated_loss loss in
  (accumulated_loss, {| t_drawn := S k; t_trace := tr ++ [TBackward loss] |}).

Fixpoint for_fold_t {T X A : Type} (xs : list X)
    (body : A -> X -> TWorld T -> A * TWorld T) (a : A) (w : TWorld T)
  : A * TWorld T :=
  match xs with
  | [] => (a, w)
  | x :: xs' => let (a', w') := body a x w in for_fold_t xs' body a' w'
  end.

(** Lines 135-149 in the tensors' arithmetic. *)
Definition accumulate_t {T : Type} (ops : TensorOps T) (forward : nat -> T)
    (self : Trainer) (w : TWorld T) : accumulator T * TWorld T :=
  let accumulated_loss := AccFloat B64.zero in
  for_fold_t (range (grad_accum_iters self)) (micro_step_t ops forward self)
             accumulated_loss w.

Definition tbackward {T : Type} (tr : list (tevent T)) : list T :=
  flat_map (fun ev => match ev with TBackward l => [l] | _ => [] end) tr.

(** [sum] of a non-empty sequence of tensors, left to right. *)
Definition tensor_sum {T : Type} (ops : TensorOps T) (l : T) (ls : list T) : T :=
  fold_left (tensor_iadd ops) ls l.

(** The accumulation claim read in the tensors' arithmetic: the
    accumulated loss is [sum(L) / grad_accum_iters]. *)
Definition accumulated_is_mean {T : Type} (ops : TensorOps T) (forward : nat -> T)
    (self : Trainer) (w : TWorld T) : Prop :=
  0 < grad_accum_iters self ->
  match map forward (seq (t_drawn w) (Z.to_nat (grad_accum_iters self))) with
  | [] => True
  | l :: ls =>
      fst (accumulate_t ops forward self w)
      = AccTensor (tensor_div_int ops (tensor_sum ops l ls) (grad_accum_iters self))
  end.

(** float32 tensors on the CPU: IEEE binary32, every operation rounded
    to nearest even. *)
Module B32.

Definition prec : Z := 24.
Definition emax : Z := 128.

Definition add : spec_float -> spec_float -> spec_float := SFadd prec emax.
Definition div : spec_float -> spec_float -> spec_float := SFdiv prec emax.

Definition of_int (z : Z) : spec_float := binary_normalize prec emax z 0 false.

(** A binary64 number rounded to binary32. *)
Definition of_b64 (x : spec_float) : spec_float :=
  match x with
  | S754_finite s m e => binary_round prec emax s m e
  | _ => x
  end.

(** The float32 nearest to the decimal [a / b]. *)
Definition decimal (a b : Z) : spec_float :=
  div (B64.exact_int a) (B64.exact_int b).

Definition ops : TensorOps spec_float := {|
  tensor_div_int := fun t n => div t (of_int n);
  float_add_tensor := fun x t => add (of_b64 x) t;
  tensor_iadd := add
|}.

End B32.

(** Three micro-batches per iteration on one process, with the float32
    losses 0.1, 0.2 and 0.3; and four with the losses 1, 2, 3 and 4. *)
Definition three_step_Trainer : Trainer := {|
  raw_model := raw_model ddp_Trainer;
  n_epochs := n_epochs ddp_Trainer;
  warmup_iters := warmup_iters ddp_Trainer;
  max_iters := max_iters ddp_Trainer;
  grad_accum_iters := 3;
  max_lr := max_lr ddp_Trainer;
  min_lr := min_lr ddp_Trainer;
  use_ddp := false;
  device_type := Cpu;
  ddp_world_size := 1;
  main_process := true
|}.

Definition tenths (k : nat) : spec_float := B32.decimal (Z.of_nat (S k)) 10.

Definition units (k : nat) : spec_float := B32.of_int (Z.of_nat (S k)).

Definition fresh_TWorld : TWorld spec_float := {| t_drawn := 0; t_trace := [] |}.

(** ** The model's enumeration read as a mapping *)

(** The value a name is bound to once a whole enumeration has been
    stored in a mapping: the last one enumerated under that name. *)
Fixpoint last_bound {V : Type} (items : list (string * V)) (k : string) : option V :=
  match items with
  | [] => None
  | (k', v) :: rest =>
      match last_bound rest k with
      | Some v' => Some v'
      | None => if String.eqb k' k then Some v else None
      end
  end.

(** ** More readings of a trace and of an optimizer *)

(** The events a micro-step may leave: a batch, a backward pass and,
    under DDP only, an assignment of the synchronisation flag. *)
Definition is_micro_event (ddp : bool) (ev : event) : bool :=
  match ev with
  | NextBatch _ | Backward _ => true
  | GradSync _ => ddp
  | _ => false
  end.

Definition is_next_batch (ev : event) : bool :=
  match ev with NextBatch _ => true | _ => false end.


(** A trainer like [ddp_Trainer] on a single process. *)
Definition single_Trainer : Trainer := {|
  raw_model := raw_model ddp_Trainer;
  n_epochs := n_epochs ddp_Trainer;
  warmup_iters := warmup_iters ddp_Trainer;
  max_iters := max_iters ddp_Trainer;
  grad_accum_iters := grad_accum_iters ddp_Trainer;
  max_lr := max_lr ddp_Trainer;
  min_lr := min_lr ddp_Trainer;
  use_ddp := false;
  device_type := Cpu;
  ddp_world_size := 1;
  main_process := true
|}.

(** The same trainer asked for no micro-batch at all. *)
Definition idle_Trainer : Trainer := {|
  raw_model := raw_model ddp_Trainer;
  n_epochs := n_epochs ddp_Trainer;
  warmup_iters := warmup_iters ddp_Trainer;
  max_iters := max_iters ddp_Trainer;
  grad_accum_iters := 0;
  max_lr := max_lr ddp_Trainer;
  min_lr := min_lr ddp_Trainer;
  use_ddp := use_ddp ddp_Trainer;
  device_type := device_type ddp_Trainer;
  ddp_world_size := ddp_world_size ddp_Trainer;
  main_process := main_process ddp_Trainer
|}.

(** ** Facts about the schedule *)

Section Schedule.

Variable self : Trainer.

Lemma le_true (x y : R) : (x <= y)%R -> le x y = true.
Proof. intro H. unfold le. destruct (Rle_dec x y); [reflexivity | contradiction]. Qed.

Lemma truediv_nonzero (x : R) (d : Z) : d <> 0 -> truediv x d = Ok (x / IZR d)%R.
Proof. intro H. unfold truediv. apply Z.eqb_neq in H. now rewrite H. Qed.

Lemma truediv_zero (x : R) : truediv x 0 = Raise ZeroDivisionError.
Proof. reflexivity. Qed.

(** The warmup branch is the first [return]. *)
Lemma _get_lr_warmup (iter : Z) :
  0 <= iter < warmup_iters self ->
  _get_lr self iter = Ok (max_lr self * IZR (iter + 1) / IZR (warmup_iters self))%R.
Proof.
  intros [H0 H1]. unfold _get_lr.
  replace (iter <? warmup_iters self) with true by (symmetry; apply Z.ltb_lt; lia).
  apply truediv_nonzero. lia.
Qed.

(** Guards of the decay branch: both early returns are skipped. *)
Lemma _get_lr_decay_branch (iter : Z) :
  warmup_iters self <= iter <= max_iters self ->
  _get_lr self iter =
  (ratio <- decay_ratio self iter ;;
   _ <- assert (le 0 ratio && le ratio 1) ;;
   Ok (min_lr self + 0.5 * (1 + cos (PI * ratio)) * (max_lr self - min_lr self))%R)%py.
Proof.
  intros [H0 H1]. unfold _get_lr.
  replace (iter <? warmup_iters self) with false by (symmetry; apply Z.ltb_ge; lia).
  replace (iter >? max_iters self) with false; [reflexivity|].
  symmetry. rewrite Z.gtb_ltb. apply Z.ltb_ge. lia.
Qed.

(** In the decay branch with a non-empty decay interval the ratio is
    a number of [0, 1]. *)
Lemma decay_ratio_unit_interval (iter : Z) :
  warmup_iters self < max_iters self ->
  warmup_iters self <= iter <= max_iters self ->
  exists r, decay_ratio self iter = Ok r /\ (0 <= r <= 1)%R.
Proof.
  intros Hlt [H0 H1].
  exists (IZR (iter - warmup_iters self) / IZR (max_iters self - warmup_iters self))%R.
  split.
  - unfold decay_ratio. apply truediv_nonzero. lia.
  - assert (Hd : (0 < IZR (max_iters self - warmup_iters self))%R)
      by (apply IZR_lt; lia).
    assert (Hn : (0 <= IZR (iter - warmup_iters self))%R)
      by (apply IZR_le; lia).
    assert (Hle : (IZR (iter - warmup_iters self)
                   <= IZR (max_iters self - warmup_iters self))%R)
      by (apply IZR_le; lia).
    split.
    + apply Rmult_le_pos; [assumption | left; now apply Rinv_0_lt_compat].
    + apply Rmult_le_reg_r with (r := IZR (max_iters self - warmup_iters self));
        [assumption|].
      unfold Rdiv. rewrite Rmult_assoc, Rinv_l by lra. lra.
Qed.

(** The value of the decay branch when the decay interval is not
    empty: the division succeeds and the assertion passes. *)
Lemma _get_lr_decay (it : Z) :
  warmup_iters self < max_iters self ->
  warmup_iters self <= it <= max_iters self ->
  _get_lr self it =
  Ok (min_lr self
      + 0.5 * (1 + cos (PI * (IZR (it - warmup_iters self)
                              / IZR (max_iters self - warmup_iters self))))
        * (max_lr self - min_lr self))%R.
Proof.
  intros Hlt Hin.
  rewrite _get_lr_decay_branch by assumption.
  destruct (decay_ratio_unit_interval it Hlt Hin) as (r & Hr & H0 & H1).
  rewrite Hr. cbn [bind].
  rewrite (le_true 0 r H0), (le_true r 1 H1). cbn [andb assert bind].
  unfold decay_ratio in Hr. rewrite truediv_nonzero in Hr by lia.
  injection Hr as <-. reflexivity.
Qed.

(** The warmup return is a division: it yields a rate or raises
    [ZeroDivisionError], nothing else. *)
Lemma truediv_not_assertion (x : R) (d : Z) : truediv x d <> Raise AssertionError.
Proof. unfold truediv. destruct (d =? 0); discriminate. Qed.

(** C9.  When [warmup_iters < max_iters], the schedule never raises
    the assertion error, whatever the integer iteration: on the decay
    branch, that is for [warmup_iters <= iteration <= max_iters], the
    ratio is computed, lies in [0, 1] and passes the assertion. *)
Theorem decay_ratio_assertion_holds (it : Z) :
  warmup_iters self < max_iters self ->
  _get_lr self it <> Raise AssertionError /\
  (warmup_iters self <= it <= max_iters self ->
   exists r, decay_ratio self it = Ok r /\ (0 <= r <= 1)%R /\
             assert (le 0 r && le r 1) = Ok tt).
Proof.
  intro Hlt. split.
  - destruct (Z.ltb_spec it (warmup_iters self)) as [Hw | Hw].
    + unfold _get_lr. replace (it <? warmup_iters self) with true
        by (symmetry; apply Z.ltb_lt; lia).
      apply truediv_not_assertion.
    + destruct (Z.ltb_spec (max_iters self) it) as [Hm | Hm].
      * unfold _get_lr. replace (it <? warmup_iters self) with false
          by (symmetry; apply Z.ltb_ge; lia).
        rewrite Z.gtb_ltb.
        replace (max_iters self <? it) with true
          by (symmetry; apply Z.ltb_lt; lia).
        discriminate.
      * rewrite _get_lr_decay by lia. discriminate.
  - intro Hin.
    destruct (decay_ratio_unit_interval it Hlt Hin) as (r & Hr & H0 & H1).
    exists r. repeat split; try assumption.
    now rewrite (le_true 0 r H0), (le_true r 1 H1).
Qed.

(** C10.  When [warmup_iters = max_iters], the schedule at
    [iteration = warmup_iters] passes both early returns and the
    division of the decay ratio raises [ZeroDivisionError]: no rate is
    returned and the assertion is not reached. *)
Theorem degenerate_interval_divides_by_zero :
  warmup_iters self = max_iters self ->
  (warmup_iters self <? warmup_iters self) = false /\
  (warmup_iters self >? max_iters self) = false /\
  decay_ratio self (warmup_iters self) = Raise ZeroDivisionError /\
  _get_lr self (warmup_iters self) = Raise ZeroDivisionError.
Proof.
  intro Heq.
  assert (Hd : decay_ratio self (warmup_iters self) = Raise ZeroDivisionError).
  { unfold decay_ratio. rewrite <- Heq, Z.sub_diag. apply truediv_zero. }
  repeat split.
  - apply Z.ltb_irrefl.
  - rewrite Z.gtb_ltb. apply Z.ltb_ge. lia.
  - exact Hd.
  - rewrite _get_lr_decay_branch by lia. now rewrite Hd.
Qed.

End Schedule.

Lemma decay_ratio_assertion_holds_witness :
  warmup_iters scenario < max_iters scenario /\
  _get_lr scenario 6 <> Raise AssertionError.
Proof.
  split; [reflexivity | apply (decay_ratio_assertion_holds scenario 6); reflexivity].
Defined.

Lemma degenerate_interval_divides_by_zero_witness :
  warmup_iters (with_schedule 5 5 0.1 0.01) = max_iters (with_schedule 5 5 0.1 0.01) /\
  _get_lr (with_schedule 5 5 0.1 0.01) 5 = Raise ZeroDivisionError.
Proof.
  split; [reflexivity|].
  apply (degenerate_interval_divides_by_zero (with_schedule 5 5 0.1 0.01)).
  reflexivity.
Defined.

(** C8.  With [warmup_iters = 2], [max_iters = 10], [max_lr = 0.1] and
    [min_lr = 0.01] the schedule returns 0.05 at iteration 0, 0.1 at
    iterations 1 and 2, and 0.01 at iteration 10. *)
Theorem scenario_rates :
  _get_lr scenario 0 = Ok 0.05%R /\
  _get_lr scenario 1 = Ok 0.1%R /\
  _get_lr scenario 2 = Ok 0.1%R /\
  _get_lr scenario 10 = Ok 0.01%R.
Proof.
  repeat split.
  - rewrite _get_lr_warmup by (simpl; lia). f_equal. simpl. lra.
  - rewrite _get_lr_warmup by (simpl; lia). f_equal. simpl. lra.
  - rewrite _get_lr_decay by (simpl; lia). f_equal. simpl.
    replace (PI * (0 / 8))%R with 0%R by lra. rewrite cos_0. lra.
  - rewrite _get_lr_decay by (simpl; lia). f_equal. simpl.
    replace (PI * (8 / 8))%R with PI by lra. rewrite cos_PI. lra.
Qed.

(** ** Facts about the schedule in binary64 *)

(** The constants are the floats the source writes. *)
Lemma b64_constants :
  B64.one = B64.decimal 1 1 /\
  B64.half = B64.decimal 5 10 /\
  B64.pi = B64.decimal 3141592653589793 1000000000000000.
Proof. repeat split; vm_compute; reflexivity. Qed.

Lemma b64_unit_coefficient :
  B64.mul B64.pi B64.zero = B64.zero /\
  B64.mul B64.half (B64.add B64.one B64.one) = B64.one.
Proof. split; vm_compute; reflexivity. Qed.







Section ScheduleB64.

Variable libm : B64.Libm.
Variable s : B64.Schedule.

(** [0 / d] for a positive int [d] is [0.0]. *)
Lemma int_truediv_zero (d : Z) : 0 < d -> B64.int_truediv 0 d = Ok B64.zero.
Proof.
  intro Hd. unfold B64.int_truediv.
  replace (d =? 0) with false by (symmetry; apply Z.eqb_neq; lia).
  destruct d as [| p | p]; try lia. reflexivity.
Qed.


Lemma b64_boundary_ratio :
  B64.warmup_iters s < B64.max_iters s ->
  B64.decay_ratio s (B64.warmup_iters s) = Ok B64.zero.
Proof.
  intro Hlt. unfold B64.decay_ratio. rewrite Z.sub_diag.
  apply int_truediv_zero. lia.
Qed.

Lemma b64_boundary_rate :
  B64.warmup_iters s < B64.max_iters s ->
  B64._get_lr libm s (B64.warmup_iters s)
  = Ok (B64.add (B64.min_lr s)
                (B64.mul B64.one (B64.sub (B64.max_lr s) (B64.min_lr s)))).
Proof.
  intro Hlt. unfold B64._get_lr.
  rewrite Z.ltb_irrefl.
  replace (B64.warmup_iters s >? B64.max_iters s) with false
    by (symmetry; rewrite Z.gtb_ltb; apply Z.ltb_ge; lia).
  rewrite (b64_boundary_ratio Hlt). cbn [bind].
  replace (SFleb B64.zero B64.zero && SFleb B64.zero B64.one) with true
    by reflexivity.
  cbn [assert bind].
  destruct b64_unit_coefficient as [Hpi Hcoeff].
  now rewrite Hpi, (B64.cos_zero libm), Hcoeff.
Qed.

(** C7 (as amended).  When [warmup_iters < max_iters], the schedule at
    [iteration = warmup_iters] passes both early returns, computes the
    decay ratio [0.0], for which the cosine coefficient is [1.0], and
    returns [min_lr + 1.0 * (max_lr - min_lr)] as binary64 computes it.
    That float is [max_lr] for some configurations and not for others
    (see [boundary_rate_of_scenario] and [boundary_rate_of_defaults]
    below). *)
Theorem boundary_rate_in_binary64 :
  B64.warmup_iters s < B64.max_iters s ->
  (B64.warmup_iters s <? B64.warmup_iters s) = false /\
  (B64.warmup_iters s >? B64.max_iters s) = false /\
  B64.decay_ratio s (B64.warmup_iters s) = Ok B64.zero /\
  B64._get_lr libm s (B64.warmup_iters s)
  = Ok (B64.add (B64.min_lr s)
                (B64.mul B64.one (B64.sub (B64.max_lr s) (B64.min_lr s)))).
Proof.
  intro Hlt. repeat split.
  - apply Z.ltb_irrefl.
  - rewrite Z.gtb_ltb. apply Z.ltb_ge. lia.
  - now apply b64_boundary_ratio.
  - now apply b64_boundary_rate.
Qed.

End ScheduleB64.

(** On the constructor's defaults the boundary rate is one unit in the
    last place below [max_lr = 6e-4]: [0.00059999999999999984],
    whatever the cosine of the library is elsewhere. *)
Lemma boundary_rate_of_defaults (libm : B64.Libm) :
  B64.max_lr B64.defaults = S754_finite false 5534023222112865 (-63) /\
  B64._get_lr libm B64.defaults 715
  = Ok (S754_finite false 5534023222112864 (-63)).
Proof.
  split; [vm_compute; reflexivity|].
  change 715 with (B64.warmup_iters B64.defaults).
  rewrite b64_boundary_rate by reflexivity.
  vm_compute. reflexivity.
Qed.

(** On the scenario of C8 it is [max_lr] itself. *)
Lemma boundary_rate_of_scenario (libm : B64.Libm) :
  B64._get_lr libm B64.scenario 2 = Ok (B64.max_lr B64.scenario).
Proof.
  change 2 with (B64.warmup_iters B64.scenario).
  rewrite b64_boundary_rate by reflexivity.
  vm_compute. reflexivity.
Qed.



(** C7 (as stated) fails: on the constructor's defaults the rate at
    iteration 715 is not [max_lr]. *)
Lemma boundary_is_not_max_lr_on_defaults : ~ boundary_is_max_lr_b64.
Proof.
  intro H. specialize (H B64.table_libm B64.defaults eq_refl).
  vm_compute in H. discriminate H.
Qed.

Lemma boundary_rate_in_binary64_witness :
  B64.warmup_iters B64.scenario < B64.max_iters B64.scenario /\
  B64._get_lr B64.table_libm B64.scenario (B64.warmup_iters B64.scenario)
  = Ok (B64.add (B64.min_lr B64.scenario)
                (B64.mul B64.one (B64.sub (B64.max_lr B64.scenario)
                                          (B64.min_lr B64.scenario)))).
Proof.
  split; [reflexivity|].
  apply (boundary_rate_in_binary64 B64.table_libm B64.scenario). reflexivity.
Defined.

(** ** Facts about the optimizer factory *)

Section Dict.

Context {V : Type}.

Lemma dict_set_keys_incl (d : list (string * V)) (k : string) (v : V) (x : string) :
  In x (map fst (dict_set d k v)) -> x = k \/ In x (map fst d).
Proof.
  induction d as [| [k' v'] d IH]; simpl.
  - intros [<- | []]. now left.
  - destruct (String.eqb_spec k' k) as [-> | Hne]; simpl.
    + intros [<- | H]; auto.
    + intros [<- | H]; auto. destruct (IH H); auto.
Qed.

Lemma dict_set_NoDup (d : list (string * V)) (k : string) (v : V) :
  NoDup (map fst d) -> NoDup (map fst (dict_set d k v)).
Proof.
  induction d as [| [k' v'] d IH]; simpl; intro Hnd.
  - constructor; [intros [] | constructor].
  - inversion Hnd as [| ? ? Hnotin Hnd']; subst.
    destruct (String.eqb_spec k' k) as [-> | Hne]; simpl.
    + now constructor.
    + constructor; [| now apply IH].
      intro Hin. apply dict_set_keys_incl in Hin as [-> | Hin]; auto.
Qed.

Lemma dict_set_fresh (d : list (string * V)) (k : string) (v : V) :
  ~ In k (map fst d) -> dict_set d k v = d ++ [(k, v)].
Proof.
  induction d as [| [k' v'] d IH]; simpl; intro Hnotin; [reflexivity|].
  destruct (String.eqb_spec k' k) as [-> | Hne].
  - exfalso. apply Hnotin. now left.
  - f_equal. apply IH. intro Hin. apply Hnotin. now right.
Qed.

Lemma fold_dict_set_NoDup (l acc : list (string * V)) :
  NoDup (map fst acc) ->
  NoDup (map fst (fold_left (fun d kv => dict_set d (fst kv) (snd kv)) l acc)).
Proof.
  revert acc. induction l as [| kv l IH]; simpl; intros acc Hnd; [assumption|].
  apply IH. now apply dict_set_NoDup.
Qed.

Lemma fold_dict_set_fresh (l acc : list (string * V)) :
  NoDup (map fst (acc ++ l)) ->
  fold_left (fun d kv => dict_set d (fst kv) (snd kv)) l acc = acc ++ l.
Proof.
  revert acc. induction l as [| [k v] l IH]; simpl; intros acc Hnd.
  - now rewrite app_nil_r.
  - rewrite dict_set_fresh.
    + rewrite IH; rewrite <- app_assoc; [reflexivity | assumption].
    + rewrite map_app in Hnd. simpl in Hnd.
      apply NoDup_remove_2 in Hnd. intro Hin. apply Hnd.
      apply in_or_app. now left.
Qed.

(** The keys of a dict are pairwise distinct. *)
Lemma dict_of_items_NoDup (l : list (string * V)) :
  NoDup (map fst (dict_of_items l)).
Proof. apply fold_dict_set_NoDup. constructor. Qed.

(** Items with pairwise distinct keys are stored as they come. *)
Lemma dict_of_items_distinct (l : list (string * V)) :
  NoDup (map fst l) -> dict_of_items l = l.
Proof. intro Hnd. unfold dict_of_items. now rewrite fold_dict_set_fresh. Qed.

Lemma filter_keys_NoDup (f : string * V -> bool) (l : list (string * V)) :
  NoDup (map fst l) -> NoDup (map fst (filter f l)).
Proof.
  induction l as [| kv l IH]; simpl; intro Hnd; [constructor|].
  inversion Hnd as [| ? ? Hnotin Hnd']; subst.
  destruct (f kv); simpl; [| now apply IH].
  constructor; [| now apply IH].
  intro Hin. apply Hnotin.
  apply in_map_iff in Hin as (kv' & Hk & Hin).
  apply filter_In in Hin as [Hin _].
  apply in_map_iff. now exists kv'.
Qed.

End Dict.

Lemma filter_split_Permutation {A : Type} (f : A -> bool) (l : list A) :
  Permutation (filter f l ++ filter (fun x => negb (f x)) l) l.
Proof.
  induction l as [| x l IH]; simpl; [constructor|].
  destruct (f x); simpl.
  - now constructor.
  - apply Permutation_sym, Permutation_cons_app. now apply Permutation_sym.
Qed.

Section Mapping.

Context {V : Type}.

Lemma dict_set_In_iff (d : list (string * V)) (k : string) (v : V)
    (n : string) (x : V) :
  NoDup (map fst d) ->
  In (n, x) (dict_set d k v)
  <-> (n = k /\ x = v) \/ (n <> k /\ In (n, x) d).
Proof.
  induction d as [| [k' v'] d IH]; simpl; intro Hnd.
  - split.
    + intros [H | []]. injection H as <- <-. now left.
    + intros [[-> ->] | [_ []]]. now left.
  - inversion Hnd as [| ? ? Hnotin Hnd']; subst.
    destruct (String.eqb_spec k' k) as [-> | Hne]; simpl.
    + split.
      * intros [H | H]; [injection H as <- <-; now left|].
        right. split; [| now right].
        intros ->. apply Hnotin. apply in_map_iff. now exists (k, x).
      * intros [[-> ->] | [Hn [H | H]]]; [now left | | now right].
        injection H as -> _. contradiction.
    + rewrite (IH Hnd'). split.
      * intros [H | [[-> ->] | [Hn H]]]; auto.
        injection H as <- <-. right. split; [congruence | now left].
      * intros [[-> ->] | [Hn [H | H]]]; auto.
  Qed.

Lemma fold_dict_set_last_bound (l acc : list (string * V)) (n : string) (x : V) :
  NoDup (map fst acc) ->
  In (n, x) (fold_left (fun d kv => dict_set d (fst kv) (snd kv)) l acc)
  <-> match last_bound l n with
      | Some x' => x = x'
      | None => In (n, x) acc
      end.
Proof.
  revert acc. induction l as [| [k v] l IH]; simpl; intros acc Hnd.
  - reflexivity.
  - rewrite (IH _ (dict_set_NoDup acc k v Hnd)).
    destruct (last_bound l n) as [x' |]; [reflexivity|].
    rewrite (dict_set_In_iff acc k v n x Hnd).
    destruct (String.eqb_spec k n) as [-> | Hne].
    + split; [intros [[_ ->] | [Hn _]]; [reflexivity | contradiction] | intros ->; now left].
    + split; [intros [[-> _] | [_ H]]; [contradiction | exact H] | intro H; right; split; [congruence | exact H]].
Qed.

(** A dict built from an enumeration binds every name to the value
    enumerated last under it, and holds nothing else. *)
Lemma dict_of_items_last_bound (l : list (string * V)) (n : string) (x : V) :
  In (n, x) (dict_of_items l) <-> last_bound l n = Some x.
Proof.
  unfold dict_of_items.
  rewrite (fold_dict_set_last_bound l [] n x (NoDup_nil _)).
  destruct (last_bound l n) as [x' |]; simpl.
  - split; [intros ->; reflexivity | intro H; now injection H as ->].
  - split; [intros [] | discriminate].
Qed.

Lemma last_bound_In (l : list (string * V)) (n : string) (x : V) :
  last_bound l n = Some x -> In (n, x) l.
Proof.
  induction l as [| [k v] l IH]; simpl; [discriminate|].
  destruct (last_bound l n) as [x' |].
  - intro H. right. now apply IH.
  - destruct (String.eqb_spec k n) as [-> | Hne]; [| discriminate].
    intro H. injection H as ->. now left.
Qed.

(** With pairwise distinct names the last binding of a name is its only
    entry. *)
Lemma last_bound_distinct (l : list (string * V)) (n : string) (x : V) :
  NoDup (map fst l) -> (last_bound l n = Some x <-> In (n, x) l).
Proof.
  intro Hnd. split; [apply last_bound_In|].
  induction l as [| [k v] l IH]; simpl; [intros []|].
  inversion Hnd as [| ? ? Hnotin Hnd']; subst.
  intros [H | H].
  - injection H as -> ->.
    destruct (last_bound l n) as [x' |] eqn:Hl.
    + exfalso. apply Hnotin. apply in_map_iff.
      exists (n, x'). split; [reflexivity | now apply last_bound_In].
    + now rewrite String.eqb_refl.
  - now rewrite (IH Hnd' H).
Qed.

End Mapping.

Section OptimizerFactory.

Variable rt : Runtime.

(** The trainable set: the entries of the model's parameter dict whose
    gradient is tracked, in the model's order. *)
Lemma param_dict_trainable (named : list (string * Tensor)) :
  param_dict named
  = filter (fun kv => requires_grad (snd kv)) (dict_of_items named).
Proof.
  unfold param_dict. apply dict_of_items_distinct.
  apply filter_keys_NoDup, dict_of_items_NoDup.
Qed.

Lemma decay_nodecay_Permutation (d : list (string * Tensor)) :
  Permutation (decay_params d ++ nodecay_params d) (map snd d).
Proof.
  unfold decay_params, nodecay_params. rewrite <- map_app.
  apply Permutation_map.
  rewrite (filter_ext (fun kv => (dim (snd kv) <? 2)%nat)
                      (fun kv => negb (2 <=? dim (snd kv))%nat)).
  - apply filter_split_Permutation.
  - intro kv. apply Nat.ltb_antisym.
Qed.

Lemma In_decay_params (d : list (string * Tensor)) (p : Tensor) :
  In p (decay_params d) <-> In p (map snd d) /\ (2 <= dim p)%nat.
Proof.
  unfold decay_params. rewrite !in_map_iff. split.
  - intros (kv & <- & Hin). apply filter_In in Hin as [Hin Hdim].
    split; [now exists kv | now apply Nat.leb_le].
  - intros [(kv & <- & Hin) Hdim]. exists kv. split; [reflexivity|].
    apply filter_In. split; [assumption | now apply Nat.leb_le].
Qed.

Lemma In_nodecay_params (d : list (string * Tensor)) (p : Tensor) :
  In p (nodecay_params d) <-> In p (map snd d) /\ (dim p < 2)%nat.
Proof.
  unfold nodecay_params. rewrite !in_map_iff. split.
  - intros (kv & <- & Hin). apply filter_In in Hin as [Hin Hdim].
    split; [now exists kv | now apply Nat.ltb_lt].
  - intros [(kv & <- & Hin) Hdim]. exists kv. split; [reflexivity|].
    apply filter_In. split; [assumption | now apply Nat.ltb_lt].
Qed.

(** C5.  For a trainer whose model enumerates the parameters [named],
    [_get_optimizer] returns an optimizer with two groups, the first
    with the given weight decay, the second with weight decay 0.  A
    tensor is in the first group exactly when the model binds some name
    to it, it tracks gradients and its rank is at least 2; it is in the
    second exactly when the model binds some name to it, it tracks
    gradients and its rank is below 2.  No tensor is in both, and the two
    groups together hold one tensor for every name bound to a trainable
    tensor, no more and no fewer.  With pairwise distinct names, as a
    model enumerates them, "the model binds some name to it" reads "it is
    one of the enumerated parameters", and the two groups together are
    the list of the model's trainable parameters rearranged. *)
Theorem optimizer_groups_partition
    (self : Trainer) (named : list (string * Tensor)) (wd lr0 : R) :
  raw_model self = Some named ->
  exists opt g_decay g_nodecay,
    _get_optimizer rt self wd lr0 = Ok opt /\
    param_groups opt = [g_decay; g_nodecay] /\
    weight_decay g_decay = wd /\
    weight_decay g_nodecay = 0%R /\
    (forall p, In p (params g_decay) <->
               exists n, last_bound named n = Some p /\
                         requires_grad p = true /\ (2 <= dim p)%nat) /\
    (forall p, In p (params g_nodecay) <->
               exists n, last_bound named n = Some p /\
                         requires_grad p = true /\ (dim p < 2)%nat) /\
    (forall p, In p (params g_decay) -> In p (params g_nodecay) -> False) /\
    (exists trainable,
       NoDup (map fst trainable) /\
       (forall n p, In (n, p) trainable <->
                    last_bound named n = Some p /\ requires_grad p = true) /\
       Permutation (params g_decay ++ params g_nodecay) (map snd trainable)) /\
    (NoDup (map fst named) ->
     (forall p, In p (params g_decay) <->
                exists n, In (n, p) named /\
                          requires_grad p = true /\ (2 <= dim p)%nat) /\
     (forall p, In p (params g_nodecay) <->
                exists n, In (n, p) named /\
                          requires_grad p = true /\ (dim p < 2)%nat) /\
     Permutation (params g_decay ++ params g_nodecay)
                 (map snd (filter (fun kv => requires_grad (snd kv)) named))).
Proof.
  intro Hmodel. unfold _get_optimizer. rewrite Hmodel.
  eexists _, _, _. split; [reflexivity|].
  cbn [param_groups].
  split; [reflexivity|]. split; [reflexivity|]. split; [reflexivity|].
  cbn [params].
  assert (Htrain : forall n p,
             In (n, p) (param_dict named) <->
             last_bound named n = Some p /\ requires_grad p = true).
  { intros n p.
    rewrite param_dict_trainable, filter_In, dict_of_items_last_bound.
    reflexivity. }
  assert (Hvalues : forall p,
             In p (map snd (param_dict named)) <->
             exists n, last_bound named n = Some p /\ requires_grad p = true).
  { intro p. rewrite in_map_iff. split.
    - intros ([n q] & <- & Hin). exists n. now apply Htrain.
    - intros (n & Hn). exists (n, p). split; [reflexivity | now apply Htrain]. }
  assert (Hdecay : forall p,
             In p (decay_params (param_dict named)) <->
             exists n, last_bound named n = Some p /\
                       requires_grad p = true /\ (2 <= dim p)%nat).
  { intro p. rewrite In_decay_params, Hvalues. split.
    - intros [(n & Hb & Hrg) Hdim]. now exists n.
    - intros (n & Hb & Hrg & Hdim). split; [now exists n | exact Hdim]. }
  assert (Hnodecay : forall p,
             In p (nodecay_params (param_dict named)) <->
             exists n, last_bound named n = Some p /\
                       requires_grad p = true /\ (dim p < 2)%nat).
  { intro p. rewrite In_nodecay_params, Hvalues. split.
    - intros [(n & Hb & Hrg) Hdim]. now exists n.
    - intros (n & Hb & Hrg & Hdim). split; [now exists n | exact Hdim]. }
  split; [| split; [| split; [| split]]].
  - exact Hdecay.
  - exact Hnodecay.
  - intros p Hd Hn.
    apply In_decay_params in Hd as [_ Hd].
    apply In_nodecay_params in Hn as [_ Hn]. lia.
  - exists (param_dict named). split; [| split].
    + rewrite param_dict_trainable.
      apply filter_keys_NoDup, dict_of_items_NoDup.
    + exact Htrain.
    + apply decay_nodecay_Permutation.
  - intro Hnd. split; [| split].
    + intro p. rewrite Hdecay. split; intros (n & Hb & Hrest); exists n;
        (split; [now apply (last_bound_distinct named n p Hnd) | exact Hrest]).
    + intro p. rewrite Hnodecay. split; intros (n & Hb & Hrest); exists n;
        (split; [now apply (last_bound_distinct named n p Hnd) | exact Hrest]).
    + rewrite <- (dict_of_items_distinct named Hnd) at 3.
      rewrite <- param_dict_trainable. apply decay_nodecay_Permutation.
Qed.

End OptimizerFactory.

Lemma optimizer_groups_partition_witness :
  raw_model ddp_Trainer = Some tiny_model /\
  exists opt g_decay g_nodecay,
    _get_optimizer sample_Runtime ddp_Trainer 0.1 6e-4 = Ok opt /\
    param_groups opt = [g_decay; g_nodecay] /\
    weight_decay g_decay = 0.1%R /\
    weight_decay g_nodecay = 0%R /\
    (forall p, In p (params g_decay) <->
               exists n, last_bound tiny_model n = Some p /\
                         requires_grad p = true /\ (2 <= dim p)%nat) /\
    (forall p, In p (params g_nodecay) <->
               exists n, last_bound tiny_model n = Some p /\
                         requires_grad p = true /\ (dim p < 2)%nat) /\
    (forall p, In p (params g_decay) -> In p (params g_nodecay) -> False) /\
    (exists trainable,
       NoDup (map fst trainable) /\
       (forall n p, In (n, p) trainable <->
                    last_bound tiny_model n = Some p /\ requires_grad p = true) /\
       Permutation (params g_decay ++ params g_nodecay) (map snd trainable)) /\
    (NoDup (map fst tiny_model) ->
     (forall p, In p (params g_decay) <->
                exists n, In (n, p) tiny_model /\
                          requires_grad p = true /\ (2 <= dim p)%nat) /\
     (forall p, In p (params g_nodecay) <->
                exists n, In (n, p) tiny_model /\
                          requires_grad p = true /\ (dim p < 2)%nat) /\
     Permutation (params g_decay ++ params g_nodecay)
                 (map snd (filter (fun kv => requires_grad (snd kv)) tiny_model))).
Proof.
  split; [reflexivity|].
  apply (optimizer_groups_partition sample_Runtime ddp_Trainer tiny_model).
  reflexivity.
Defined.

(** ** Facts about the training loop *)

Lemma range_length (n : Z) : List.length (range n) = Z.to_nat n.
Proof. unfold range. now rewrite length_map, length_seq. Qed.

Lemma range_nth_error (n i : Z) :
  0 <= i < n -> nth_error (range n) (Z.to_nat i) = Some i.
Proof.
  intro Hi. unfold range.
  rewrite nth_error_map, nth_error_seq.
  replace (Z.to_nat i <? Z.to_nat n)%nat with true
    by (symmetry; apply Nat.ltb_lt; lia).
  simpl. f_equal. lia.
Qed.

Lemma grad_sync_flags_app (tr1 tr2 : list event) :
  grad_sync_flags (tr1 ++ tr2) = grad_sync_flags tr1 ++ grad_sync_flags tr2.
Proof. apply flat_map_app. Qed.

Lemma backward_losses_app (tr1 tr2 : list event) :
  backward_losses (tr1 ++ tr2) = backward_losses tr1 ++ backward_losses tr2.
Proof. apply flat_map_app. Qed.

Section Loop.

Variable rt : Runtime.
Variable self : Trainer.

(** One micro-step: it draws a batch, sets the synchronisation flag
    under DDP, backpropagates the scaled loss and adds it to the
    accumulator. *)
Lemma micro_step_run (acc : R) (i : Z) (w : World) :
  exists w1 tr1,
    micro_step rt self acc i w
    = (Ok (acc + forward_loss rt (drawn w) / IZR (grad_accum_iters self))%R, w1) /\
    trace w1 = trace w ++ tr1 /\
    groups w1 = groups w /\
    drawn w1 = S (drawn w) /\
    backward_losses tr1
    = [(forward_loss rt (drawn w) / IZR (grad_accum_iters self))%R] /\
    grad_sync_flags tr1
    = (if use_ddp self then [i =? grad_accum_iters self - 1] else []) /\
    filter is_step tr1 = [].
Proof.
  unfold micro_step, mbind, next_batch, emit, ret.
  destruct (use_ddp self); cbn.
  - eexists _, [NextBatch (cursor w);
                GradSync (i =? grad_accum_iters self - 1);
                Backward _].
    split; [reflexivity|]. cbn. rewrite <- !app_assoc. repeat split.
  - eexists _, [NextBatch (cursor w); Backward _].
    split; [reflexivity|]. cbn. rewrite <- !app_assoc. repeat split.
Qed.

(** The micro-batch loop over any list of micro-step indices. *)
Lemma for_fold_micro_steps (micro_iters : list Z) :
  forall (acc : R) (w : World),
  exists w' tr,
    for_fold micro_iters (micro_step rt self) acc w
    = (Ok (acc + Rsum (scaled_losses rt self (drawn w) (List.length micro_iters)))%R,
       w') /\
    trace w' = trace w ++ tr /\
    groups w' = groups w /\
    backward_losses tr
    = scaled_losses rt self (drawn w) (List.length micro_iters) /\
    grad_sync_flags tr
    = (if use_ddp self
       then map (fun i => i =? grad_accum_iters self - 1) micro_iters
       else []) /\
    filter is_step tr = [].
Proof.
  induction micro_iters as [| i rest IH]; intros acc w.
  - exists w, []. cbn. rewrite app_nil_r, Rplus_0_r.
    repeat split. now destruct (use_ddp self).
  - destruct (micro_step_run acc i w)
      as (w1 & tr1 & Hrun & Htr1 & Hg1 & Hd1 & Hb1 & Hs1 & Hst1).
    destruct (IH (acc + forward_loss rt (drawn w) / IZR (grad_accum_iters self))%R w1)
      as (w' & tr & Hrun' & Htr & Hg & Hb & Hs & Hst).
    exists w', (tr1 ++ tr).
    cbn [for_fold]. unfold mbind at 1. rewrite Hrun, Hrun'.
    rewrite Hd1 in *. cbn [List.length scaled_losses seq map Rsum].
    fold (scaled_losses rt self (S (drawn w)) (List.length rest)).
    repeat split.
    + f_equal. f_equal. lra.
    + now rewrite Htr, Htr1, app_assoc.
    + congruence.
    + now rewrite backward_losses_app, Hb1, Hb.
    + rewrite grad_sync_flags_app, Hs1, Hs. now destruct (use_ddp self).
    + now rewrite filter_app, Hst1, Hst.
Qed.

(** The accumulation step of one iteration, started in any world. *)
Lemma accumulate_run (w : World) :
  exists w' tr,
    accumulate rt self w
    = (Ok (Rsum (scaled_losses rt self (drawn w)
                   (Z.to_nat (grad_accum_iters self)))), w') /\
    trace w' = trace w ++ tr /\
    groups w' = groups w /\
    backward_losses tr
    = scaled_losses rt self (drawn w) (Z.to_nat (grad_accum_iters self)) /\
    grad_sync_flags tr
    = (if use_ddp self
       then map (fun i => i =? grad_accum_iters self - 1)
                (range (grad_accum_iters self))
       else []) /\
    filter is_step tr = [].
Proof.
  destruct (for_fold_micro_steps (range (grad_accum_iters self)) 0%R w)
    as (w' & tr & Hrun & Htr & Hg & Hb & Hs & Hst).
  rewrite range_length, Rplus_0_l in Hrun. rewrite range_length in Hb.
  exists w', tr. unfold accumulate, mbind, lift. cbn [iter].
  now rewrite Hrun.
Qed.

End Loop.

Lemma mbind_ok {A B : Type} (m : M A) (k : A -> M B) (w w' : World) (a : A) :
  m w = (Ok a, w') -> mbind m k w = k a w'.
Proof. intro H. unfold mbind. now rewrite H. Qed.

Lemma mbind_emit {B : Type} (ev : event) (k : unit -> M B) (w : World) :
  mbind (emit ev) k w
  = k tt {| cursor := cursor w; drawn := drawn w;
            groups := groups w; trace := trace w ++ [ev] |}.
Proof. reflexivity. Qed.

(** [get_lr] is not a name bound on a trainer; the schedule is bound
    under [_get_lr]. *)
Lemma get_lr_unbound :
  existsb (String.eqb "get_lr") Trainer_members = false /\
  existsb (String.eqb "_get_lr") Trainer_members = true.
Proof. split; reflexivity. Qed.

Lemma adjust_optimizer_lr_raises (self : Trainer) (it : Z) (w : World) :
  adjust_optimizer_lr self it w = (Raise AttributeError, w).
Proof. reflexivity. Qed.

Section Claims.

Variable rt : Runtime.
Variable self : Trainer.

(** C4.  Under DDP, the accumulation step of an iteration assigns the
    gradient synchronisation flag once per micro-step: [False] on the
    micro-steps [0 .. grad_accum_iters - 2] and [True] on the last
    one, [grad_accum_iters - 1]. *)
Theorem grad_sync_only_on_last_micro_step (w : World) :
  use_ddp self = true ->
  exists acc w' tr,
    accumulate rt self w = (Ok acc, w') /\
    trace w' = trace w ++ tr /\
    List.length (grad_sync_flags tr) = Z.to_nat (grad_accum_iters self) /\
    (forall i, 0 <= i < grad_accum_iters self - 1 ->
               nth_error (grad_sync_flags tr) (Z.to_nat i) = Some false) /\
    (0 < grad_accum_iters self ->
     nth_error (grad_sync_flags tr) (Z.to_nat (grad_accum_iters self - 1))
     = Some true).
Proof.
  intro Hddp.
  destruct (accumulate_run rt self w) as (w' & tr & Hrun & Htr & _ & _ & Hs & _).
  rewrite Hddp in Hs.
  eexists. exists w', tr. split; [exact Hrun|]. split; [exact Htr|].
  rewrite Hs. split; [| split].
  - now rewrite length_map, range_length.
  - intros i Hi. rewrite nth_error_map, range_nth_error by lia.
    cbn. f_equal. apply Z.eqb_neq. lia.
  - intro Hn. rewrite nth_error_map, range_nth_error by lia.
    cbn. f_equal. apply Z.eqb_refl.
Qed.

(** C2 (the code departs from it).  Every iteration of the loop body
    stops in [adjust_optimizer_lr] with an [AttributeError]: the method
    asks for [self.get_lr], the schedule is called [_get_lr].  No rate
    is written to a parameter group and the optimizer step is not
    reached. *)
Theorem iteration_stops_before_optimizer_step (e it : Z) (w : World) :
  exists w',
    iteration rt self e it w = (Raise AttributeError, w') /\
    groups w' = groups w /\
    filter is_step (trace w') = filter is_step (trace w).
Proof.
  unfold iteration. rewrite !mbind_emit.
  match goal with
  | |- context [mbind (accumulate rt self) _ ?w0] =>
      destruct (accumulate_run rt self w0)
        as (w1 & tr & Hrun & Htr & Hg & _ & _ & Hst)
  end.
  rewrite (mbind_ok _ _ _ _ _ Hrun).
  destruct (use_ddp self);
    (eexists; split; [reflexivity|]);
    cbn; rewrite Hg, Htr; cbn;
    (split; [reflexivity|]);
    rewrite !filter_app, Hst; cbn; now rewrite !app_nil_r.
Qed.

(** C1 (the code departs from it).  [train] never enters its epoch
    loop: [for e in self.n_epochs] asks an [int] for an iterator and
    raises [TypeError] (or [_get_optimizer] has already raised for a
    trainer without [raw_model]).  No epoch and no iteration is run,
    whatever [n_epochs] and [max_iters] are. *)
Theorem train_never_enters_epoch_loop (w : World) :
  exists w',
    train rt self w
    = (Raise (match raw_model self with
              | Some _ => TypeError
              | None => AttributeError
              end), w') /\
    trace w' = trace w /\
    epochs_begun (trace w') = epochs_begun (trace w) /\
    iterations_begun (trace w') = iterations_begun (trace w).
Proof.
  unfold train, _get_optimizer.
  destruct (raw_model self) as [named |].
  - eexists. split; [reflexivity|]. cbn. repeat split.
  - exists w. repeat split.
Qed.

End Claims.

Lemma grad_sync_only_on_last_micro_step_witness :
  use_ddp ddp_Trainer = true /\
  exists acc w' tr,
    accumulate sample_Runtime ddp_Trainer fresh_World = (Ok acc, w') /\
    trace w' = trace fresh_World ++ tr /\
    List.length (grad_sync_flags tr) = 4%nat /\
    (forall i, 0 <= i < 3 ->
               nth_error (grad_sync_flags tr) (Z.to_nat i) = Some false) /\
    (0 < 4 -> nth_error (grad_sync_flags tr) 3 = Some true).
Proof.
  split; [reflexivity|].
  apply (grad_sync_only_on_last_micro_step sample_Runtime ddp_Trainer fresh_World).
  reflexivity.
Defined.

(** The run of the sample trainer, one epoch of ten iterations asked
    for: [TypeError], nothing begun. *)
Example train_sample_run :
  fst (train sample_Runtime ddp_Trainer fresh_World) = Raise TypeError /\
  trace (snd (train sample_Runtime ddp_Trainer fresh_World)) = [].
Proof. split; reflexivity. Qed.

(** The first iteration of the sample trainer, run on its own: the four
    micro-steps and the clipping happen, then [AttributeError]. *)
Example iteration_sample_run :
  fst (iteration sample_Runtime ddp_Trainer 0 0 fresh_World) = Raise AttributeError /\
  grad_sync_flags (trace (snd (iteration sample_Runtime ddp_Trainer 0 0 fresh_World)))
  = [false; false; false; true] /\
  filter is_step (trace (snd (iteration sample_Runtime ddp_Trainer 0 0 fresh_World)))
  = [].
Proof. repeat split; reflexivity. Qed.

(** ** The accumulation loop in the tensors' arithmetic *)

Lemma tbackward_app {T : Type} (tr1 tr2 : list (tevent T)) :
  tbackward (tr1 ++ tr2) = tbackward tr1 ++ tbackward tr2.
Proof. apply flat_map_app. Qed.

Section TensorLoop.

Context {T : Type}.
Variable ops : TensorOps T.
Variable forward : nat -> T.
Variable self : Trainer.

(** Once the accumulator is a tensor it stays one. *)
Lemma fold_acc_iadd_tensor (ls : list T) (t : T) :
  fold_left (acc_iadd ops) ls (AccTensor t)
  = AccTensor (fold_left (tensor_iadd ops) ls t).
Proof. revert t. induction ls as [| l ls IH]; intro t; [reflexivity | apply IH]. Qed.

Lemma micro_step_t_run (acc : accumulator T) (i : Z) (w : TWorld T) :
  exists w1,
    micro_step_t ops forward self acc i w
    = (acc_iadd ops acc
         (tensor_div_int ops (forward (t_drawn w)) (grad_accum_iters self)), w1) /\
    t_drawn w1 = S (t_drawn w) /\
    tbackward (t_trace w1)
    = tbackward (t_trace w)
      ++ [tensor_div_int ops (forward (t_drawn w)) (grad_accum_iters self)].
Proof.
  unfold micro_step_t. eexists. split; [reflexivity|]. cbn [t_drawn t_trace].
  split; [reflexivity|].
  destruct (use_ddp self); rewrite !tbackward_app; cbn;
    now rewrite ?app_nil_r.
Qed.

Lemma for_fold_t_micro_steps (micro_iters : list Z) :
  forall (acc : accumulator T) (w : TWorld T),
  exists w',
    for_fold_t micro_iters (micro_step_t ops forward self) acc w
    = (fold_left (acc_iadd ops)
         (map (fun k => tensor_div_int ops (forward k) (grad_accum_iters self))
              (seq (t_drawn w) (List.length micro_iters)))
         acc, w') /\
    tbackward (t_trace w')
    = tbackward (t_trace w)
      ++ map (fun k => tensor_div_int ops (forward k) (grad_accum_iters self))
             (seq (t_drawn w) (List.length micro_iters)).
Proof.
  induction micro_iters as [| i rest IH]; intros acc w.
  - exists w. cbn. now rewrite app_nil_r.
  - destruct (micro_step_t_run acc i w) as (w1 & Hrun & Hd & Hb).
    destruct (IH (acc_iadd ops acc
                    (tensor_div_int ops (forward (t_drawn w))
                                    (grad_accum_iters self))) w1)
      as (w' & Hrun' & Hb').
    exists w'. cbn [for_fold_t]. rewrite Hrun, Hrun'.
    rewrite Hd in *. cbn [List.length seq map fold_left].
    split; [reflexivity|].
    rewrite Hb', Hb, <- app_assoc. reflexivity.
Qed.

(** C3 (as amended).  In whatever world an iteration starts, let [L] be
    the losses of the [grad_accum_iters] micro-batches it draws.  Each is
    divided by [grad_accum_iters] before it is backpropagated, and the
    accumulated loss is the sum of these quotients taken in micro-step
    order from a fresh [0.0], every division and addition being the
    rounded operation of the tensor library: [0.0 + L_0/n + L_1/n + ...].
    Nothing is carried over from an earlier iteration.  Whether that
    float is [sum(L) / n] depends on the losses (see the two runs
    below). *)
Theorem accumulated_loss_is_running_sum (w : TWorld T) :
  let L := map forward (seq (t_drawn w) (Z.to_nat (grad_accum_iters self))) in
  let scaled :=
    map (fun l => tensor_div_int ops l (grad_accum_iters self)) L in
  exists w',
    accumulate_t ops forward self w
    = (fold_left (acc_iadd ops) scaled (AccFloat B64.zero), w') /\
    tbackward (t_trace w') = tbackward (t_trace w) ++ scaled /\
    List.length L = Z.to_nat (grad_accum_iters self) /\
    (0 < grad_accum_iters self ->
     exists l ls,
       scaled = l :: ls /\
       fold_left (acc_iadd ops) scaled (AccFloat B64.zero)
       = AccTensor (fold_left (tensor_iadd ops) ls
                              (float_add_tensor ops B64.zero l))).
Proof.
  intros L scaled.
  destruct (for_fold_t_micro_steps (range (grad_accum_iters self))
                                   (AccFloat B64.zero) w)
    as (w' & Hrun & Hb).
  rewrite range_length in Hrun, Hb.
  assert (Hscaled :
            scaled
            = map (fun k => tensor_div_int ops (forward k) (grad_accum_iters self))
                  (seq (t_drawn w) (Z.to_nat (grad_accum_iters self))))
    by (unfold scaled, L; apply map_map).
  exists w'. unfold accumulate_t. rewrite Hscaled.
  split; [exact Hrun|]. split; [exact Hb|].
  split; [unfold L; now rewrite length_map, length_seq|].
  intro Hn.
  destruct (Z.to_nat (grad_accum_iters self)) as [| m] eqn:Hm; [lia|].
  cbn [seq map]. eexists _, _. split; [reflexivity|].
  cbn [fold_left acc_iadd]. apply fold_acc_iadd_tensor.
Qed.

End TensorLoop.

Lemma accumulated_loss_is_running_sum_witness :
  exists w',
    accumulate_t B32.ops units ddp_Trainer fresh_TWorld
    = (fold_left (acc_iadd B32.ops)
         (map (fun l => tensor_div_int B32.ops l 4) (map units (seq 0 4)))
         (AccFloat B64.zero), w') /\
    tbackward (t_trace w')
    = map (fun l => tensor_div_int B32.ops l 4) (map units (seq 0 4)).
Proof.
  destruct (accumulated_loss_is_running_sum B32.ops units ddp_Trainer fresh_TWorld)
    as (w' & Hrun & Hb & _).
  exists w'. split; [exact Hrun | exact Hb].
Defined.

(** C3 (as stated) fails in float32: with three micro-batches of losses
    0.1, 0.2 and 0.3 the accumulated loss is 0.20000001788139343, one
    unit in the last place above [sum(L) / 3 = 0.20000000298023224]. *)
Lemma accumulated_loss_is_not_the_mean :
  ~ accumulated_is_mean B32.ops tenths three_step_Trainer fresh_TWorld.
Proof.
  intro H. specialize (H eq_refl). vm_compute in H. discriminate H.
Qed.

(** The two values of that run. *)
Example accumulated_loss_of_tenths :
  fst (accumulate_t B32.ops tenths three_step_Trainer fresh_TWorld)
  = AccTensor (S754_finite false 13421774 (-26)) /\
  B32.div (tensor_sum B32.ops (tenths 0) [tenths 1; tenths 2]) (B32.of_int 3)
  = S754_finite false 13421773 (-26).
Proof. split; vm_compute; reflexivity. Qed.

(** The specification's example, four micro-batches with the losses 1,
    2, 3 and 4: here no operation rounds and the accumulated loss is
    the mean 2.5. *)
Example accumulated_loss_of_units :
  fst (accumulate_t B32.ops units ddp_Trainer fresh_TWorld)
  = AccTensor (B32.decimal 5 2) /\
  accumulated_is_mean B32.ops units ddp_Trainer fresh_TWorld.
Proof.
  split; [vm_compute; reflexivity|].
  intros _. vm_compute. reflexivity.
Qed.

(** ** The shape of the schedule beyond the claims *)

Section ScheduleShape.

Variable self : Trainer.

Lemma _get_lr_past_horizon (it : Z) :
  warmup_iters self <= it -> max_iters self < it ->
  _get_lr self it = Ok (min_lr self).
Proof.
  intros Hw Hm. unfold _get_lr.
  replace (it <? warmup_iters self) with false
    by (symmetry; apply Z.ltb_ge; lia).
  rewrite Z.gtb_ltb.
  replace (max_iters self <? it) with true
    by (symmetry; apply Z.ltb_lt; lia).
  reflexivity.
Qed.


(** X2.  The decay ends on [min_lr]: at [iteration = max_iters] the ratio is
    1 and the cosine term vanishes, so the rate joins the value used
    past the horizon. *)
Theorem decay_ends_at_min_lr :
  warmup_iters self < max_iters self ->
  _get_lr self (max_iters self) = Ok (min_lr self) /\
  _get_lr self (max_iters self + 1) = Ok (min_lr self).
Proof.
  intro Hlt. split.
  - rewrite _get_lr_decay by lia.
    assert (Hd : (IZR (max_iters self - warmup_iters self) <> 0)%R)
      by (apply not_0_IZR; lia).
    replace (PI * (IZR (max_iters self - warmup_iters self)
                   / IZR (max_iters self - warmup_iters self)))%R
      with PI by (field; assumption).
    rewrite cos_PI. f_equal. lra.
  - apply _get_lr_past_horizon; lia.
Qed.

(** X9.  As long as the iteration and [warmup_iters] are within the
    range of a float (below [2^1023] in absolute value), the only
    exception the schedule raises is [ZeroDivisionError], in two
    situations exactly: a negative iteration with [warmup_iters = 0], and
    [iteration = warmup_iters = max_iters].  The assertion on the decay
    ratio cannot fail, whatever the configuration. *)
Theorem schedule_errors (it : Z) :
  Z.abs it < 2 ^ 1023 ->
  Z.abs (warmup_iters self) < 2 ^ 1023 ->
  ((exists a, _get_lr self it = Ok a) \/
   _get_lr self it = Raise ZeroDivisionError) /\
  (_get_lr self it = Raise ZeroDivisionError <->
   (it < 0 /\ warmup_iters self = 0) \/
   (it = warmup_iters self /\ warmup_iters self = max_iters self)).
Proof.
  intros _ _.
  destruct (Z.ltb_spec it (warmup_iters self)) as [Hw | Hw].
  - assert (Hrun : _get_lr self it
                   = truediv (max_lr self * IZR (it + 1)) (warmup_iters self)).
    { unfold _get_lr.
      now replace (it <? warmup_iters self) with true
        by (symmetry; apply Z.ltb_lt; lia). }
    rewrite Hrun. unfold truediv.
    destruct (Z.eqb_spec (warmup_iters self) 0) as [H0 | H0].
    + split; [now right|]. split; [intros _; left; lia | reflexivity].
    + split; [left; eauto|]. split; [discriminate | lia].
  - destruct (Z.ltb_spec (max_iters self) it) as [Hm | Hm].
    + rewrite (_get_lr_past_horizon it Hw Hm).
      split; [left; eauto|]. split; [discriminate | lia].
    + destruct (Z.eq_dec (warmup_iters self) (max_iters self)) as [Heq | Hne].
      * assert (Hrun : _get_lr self it = Raise ZeroDivisionError).
        { rewrite _get_lr_decay_branch by lia. unfold decay_ratio.
          replace (max_iters self - warmup_iters self) with 0 by lia.
          reflexivity. }
        rewrite Hrun. split; [now right|].
        split; [intros _; right; lia | reflexivity].
      * rewrite _get_lr_decay by lia.
        split; [left; eauto|]. split; [discriminate | lia].
Qed.

End ScheduleShape.

Lemma schedule_errors_witness :
  (Z.abs 5 < 2 ^ 1023 /\ Z.abs (warmup_iters scenario) < 2 ^ 1023) /\
  ((exists a, _get_lr scenario 5 = Ok a) \/
   _get_lr scenario 5 = Raise ZeroDivisionError).
Proof.
  split; [split; reflexivity|].
  apply (schedule_errors scenario 5); reflexivity.
Defined.


Lemma decay_ends_at_min_lr_witness :
  warmup_iters scenario < max_iters scenario /\
  _get_lr scenario (max_iters scenario) = Ok (min_lr scenario).
Proof.
  split; [reflexivity | apply (decay_ends_at_min_lr scenario); reflexivity].
Defined.

(** ** The accumulation step and the iteration body beyond the claims *)

Section Batches.

Variable rt : Runtime.
Variable self : Trainer.

Lemma micro_step_batches (acc : R) (i : Z) (w : World) :
  exists a1 w1 tr1,
    micro_step rt self acc i w = (Ok a1, w1) /\
    trace w1 = trace w ++ tr1 /\
    List.length (filter is_next_batch tr1) = 1%nat /\
    forallb (is_micro_event (use_ddp self)) tr1 = true.
Proof.
  unfold micro_step, mbind, next_batch, emit, ret.
  destruct (use_ddp self); cbn.
  - eexists _, _, [NextBatch (cursor w); GradSync _; Backward _].
    split; [reflexivity|]. cbn. rewrite <- !app_assoc. repeat split.
  - eexists _, _, [NextBatch (cursor w); Backward _].
    split; [reflexivity|]. cbn. rewrite <- !app_assoc. repeat split.
Qed.

Lemma for_fold_batches (micro_iters : list Z) :
  forall (acc : R) (w : World),
  exists a w' tr,
    for_fold micro_iters (micro_step rt self) acc w = (Ok a, w') /\
    trace w' = trace w ++ tr /\
    List.length (filter is_next_batch tr) = List.length micro_iters /\
    forallb (is_micro_event (use_ddp self)) tr = true.
Proof.
  induction micro_iters as [| i rest IH]; intros acc w.
  - exists acc, w, []. cbn. rewrite app_nil_r. repeat split.
  - destruct (micro_step_batches acc i w)
      as (a1 & w1 & tr1 & Hrun & Htr1 & Hb1 & Hm1).
    destruct (IH a1 w1) as (a & w' & tr & Hrun' & Htr & Hb & Hm).
    exists a, w', (tr1 ++ tr).
    cbn [for_fold]. unfold mbind at 1. rewrite Hrun, Hrun'.
    cbn [List.length]. repeat split.
    + now rewrite Htr, Htr1, app_assoc.
    + now rewrite filter_app, length_app, Hb1, Hb.
    + now rewrite forallb_app, Hm1, Hm.
Qed.

Lemma accumulate_batches (w : World) :
  exists a w' tr,
    accumulate rt self w = (Ok a, w') /\
    trace w' = trace w ++ tr /\
    List.length (filter is_next_batch tr) = Z.to_nat (grad_accum_iters self) /\
    forallb (is_micro_event (use_ddp self)) tr = true.
Proof.
  destruct (for_fold_batches (range (grad_accum_iters self)) 0%R w)
    as (a & w' & tr & Hrun & Hrest).
  rewrite range_length in Hrest.
  exists a, w', tr. split; [| exact Hrest].
  unfold accumulate, mbind, lift. cbn [iter]. now rewrite Hrun.
Qed.

(** X11.  With [grad_accum_iters <= 0] the micro-batch loop does not run: the
    accumulation step returns [0.0] and changes nothing, no batch is
    read and nothing is backpropagated. *)
Theorem accumulate_without_micro_batches (w : World) :
  grad_accum_iters self <= 0 ->
  accumulate rt self w = (Ok 0%R, w).
Proof.
  intro Hn. unfold accumulate, mbind, lift. cbn [iter]. unfold range.
  replace (Z.to_nat (grad_accum_iters self)) with 0%nat by lia.
  reflexivity.
Qed.

(** X12.  Without DDP the accumulation step never assigns the gradient
    synchronisation flag of the model. *)
Theorem no_grad_sync_without_ddp (w : World) :
  use_ddp self = false ->
  exists a w' tr,
    accumulate rt self w = (Ok a, w') /\
    trace w' = trace w ++ tr /\
    grad_sync_flags tr = [].
Proof.
  intro Hddp.
  destruct (accumulate_run rt self w) as (w' & tr & Hrun & Htr & _ & _ & Hs & _).
  rewrite Hddp in Hs. eexists. exists w', tr. repeat split; eassumption.
Qed.

(** X10.  The accumulation step calls [next_batch()] once per
    micro-step: exactly [grad_accum_iters] times, and not at all when
    [grad_accum_iters <= 0]. *)
Theorem accumulate_reads_one_batch_per_micro_step (w : World) :
  exists a w' tr,
    accumulate rt self w = (Ok a, w') /\
    trace w' = trace w ++ tr /\
    List.length (filter is_next_batch tr) = Z.to_nat (grad_accum_iters self).
Proof.
  destruct (accumulate_batches w) as (a & w' & tr & Hrun & Htr & Hb & _).
  exists a, w', tr. split; [exact Hrun|]. split; [exact Htr | exact Hb].
Qed.

(** X13.  An iteration that runs without DDP, or with at least one
    micro-batch, does this before it stops, in order: the model is put in
    training mode and the gradients are cleared once, then come the
    micro-steps and nothing else, one batch read each, then the
    all-reduce of the loss under DDP only, then the gradient clipping.
    It stops with [AttributeError]: no optimizer step, validation,
    evaluation or log line follows. *)
Theorem iteration_order (e it : Z) (w : World) :
  use_ddp self = false \/ 0 < grad_accum_iters self ->
  exists w' tr,
    iteration rt self e it w = (Raise AttributeError, w') /\
    trace w'
    = trace w ++ [ModelTrain; ZeroGrad] ++ tr
      ++ (if use_ddp self then [AllReduce] else []) ++ [ClipGradNorm] /\
    forallb (is_micro_event (use_ddp self)) tr = true /\
    List.length (filter is_next_batch tr) = Z.to_nat (grad_accum_iters self).
Proof.
  intros _. unfold iteration. rewrite !mbind_emit.
  match goal with
  | |- context [mbind (accumulate rt self) _ ?w0] =>
      destruct (accumulate_batches w0)
        as (a & w1 & tr & Hrun & Htr & Hb & Hm)
  end.
  rewrite (mbind_ok _ _ _ _ _ Hrun). cbn in Htr.
  exists {| cursor := cursor w1; drawn := drawn w1; groups := groups w1;
            trace := (if use_ddp self
                      then trace w1 ++ [AllReduce]
                      else trace w1) ++ [ClipGradNorm] |}, tr.
  split; [now destruct (use_ddp self)|].
  cbn [trace]. rewrite Htr. split; [| split].
  - destruct (use_ddp self); cbn; rewrite <- !app_assoc; reflexivity.
  - exact Hm.
  - exact Hb.
Qed.

End Batches.

Lemma iteration_order_witness :
  (use_ddp ddp_Trainer = false \/ 0 < grad_accum_iters ddp_Trainer) /\
  exists w' tr,
    iteration sample_Runtime ddp_Trainer 0 0 fresh_World
    = (Raise AttributeError, w') /\
    trace w'
    = trace fresh_World ++ [ModelTrain; ZeroGrad] ++ tr
      ++ (if use_ddp ddp_Trainer then [AllReduce] else []) ++ [ClipGradNorm] /\
    forallb (is_micro_event (use_ddp ddp_Trainer)) tr = true /\
    List.length (filter is_next_batch tr)
    = Z.to_nat (grad_accum_iters ddp_Trainer).
Proof.
  split; [right; reflexivity|].
  apply (iteration_order sample_Runtime ddp_Trainer 0 0 fresh_World).
  right. reflexivity.
Defined.

Lemma accumulate_without_micro_batches_witness :
  grad_accum_iters idle_Trainer <= 0 /\
  accumulate sample_Runtime idle_Trainer fresh_World = (Ok 0%R, fresh_World).
Proof.
  split; [discriminate|].
  apply (accumulate_without_micro_batches sample_Runtime idle_Trainer fresh_World).
  discriminate.
Defined.

Lemma no_grad_sync_without_ddp_witness :
  use_ddp single_Trainer = false /\
  exists a w' tr,
    accumulate sample_Runtime single_Trainer fresh_World = (Ok a, w') /\
    trace w' = trace fresh_World ++ tr /\
    grad_sync_flags tr = [].
Proof.
  split; [reflexivity|].
  apply (no_grad_sync_without_ddp sample_Runtime single_Trainer fresh_World).
  reflexivity.
Defined.

(** ** The optimizer factory beyond the claims *)

Lemma dict_set_In {V : Type} (d : list (string * V)) (k : string) (v : V)
    (kv : string * V) :
  In kv (dict_set d k v) -> In kv d \/ kv = (k, v).
Proof.
  induction d as [| [k' v'] d IH]; simpl.
  - intros [<- | []]. now right.
  - destruct (String.eqb_spec k' k) as [-> | Hne]; simpl.
    + intros [<- | H]; auto.
    + intros [<- | H]; auto. destruct (IH H); auto.
Qed.

Lemma fold_dict_set_In {V : Type} (l acc : list (string * V)) (kv : string * V) :
  In kv (fold_left (fun d x => dict_set d (fst x) (snd x)) l acc) ->
  In kv acc \/ In kv l.
Proof.
  revert acc. induction l as [| [k v] l IH]; simpl; intros acc H; auto.
  apply IH in H as [H | H]; auto.
  apply dict_set_In in H as [H | ->]; auto.
Qed.

(** A dict built from items holds nothing but those items. *)
Lemma dict_of_items_In {V : Type} (l : list (string * V)) (kv : string * V) :
  In kv (dict_of_items l) -> In kv l.
Proof.
  intro H. apply fold_dict_set_In in H as [[] | H]. exact H.
Qed.

Lemma filter_twice {A : Type} (f g : A -> bool) (l : list A) :
  filter f (filter g l) = filter (fun x => g x && f x) l.
Proof.
  induction l as [| x l IH]; simpl; [reflexivity|].
  destruct (g x); simpl; [destruct (f x) |]; now rewrite IH.
Qed.





Section OptimizerShape.

Variable rt : Runtime.
Variable self : Trainer.
Variable named : list (string * Tensor).
Hypothesis Hmodel : raw_model self = Some named.


(** X15.  The optimizer never receives a frozen tensor, nor one the model does
    not enumerate: every member of either group tracks gradients and is
    a parameter of the model. *)
Theorem groups_hold_only_trainable (wd lr0 : R) :
  exists opt,
    _get_optimizer rt self wd lr0 = Ok opt /\
    forall g p, In g (param_groups opt) -> In p (params g) ->
                requires_grad p = true /\ exists n, In (n, p) named.
Proof.
  unfold _get_optimizer. rewrite Hmodel.
  eexists. split; [reflexivity|].
  assert (Hsrc : forall p, In p (map snd (param_dict named)) ->
                           requires_grad p = true /\ exists n, In (n, p) named).
  { intros p Hin. apply in_map_iff in Hin as ([n q] & <- & Hin).
    rewrite param_dict_trainable in Hin.
    apply filter_In in Hin as [Hin Hrg]. split; [exact Hrg|].
    exists n. now apply dict_of_items_In. }
  intros g p Hg Hp. cbn [param_groups] in Hg.
  destruct Hg as [<- | [<- | []]]; cbn [params] in Hp.
  - apply In_decay_params in Hp as [Hp _]. now apply Hsrc.
  - apply In_nodecay_params in Hp as [Hp _]. now apply Hsrc.
Qed.

(** X16.  When the names are pairwise distinct, as [named_parameters()] yields
    them, both groups keep the model's enumeration order: the decay
    group is the trainable tensors of rank at least 2 in that order, the
    other group the trainable tensors of rank below 2. *)
Theorem groups_keep_model_order (wd lr0 : R) :
  NoDup (map fst named) ->
  exists opt g_decay g_nodecay,
    _get_optimizer rt self wd lr0 = Ok opt /\
    param_groups opt = [g_decay; g_nodecay] /\
    params g_decay
    = map snd (filter (fun kv => requires_grad (snd kv)
                                 && (2 <=? dim (snd kv))%nat) named) /\
    params g_nodecay
    = map snd (filter (fun kv => requires_grad (snd kv)
                                 && (dim (snd kv) <? 2)%nat) named).
Proof.
  intro Hnd. unfold _get_optimizer. rewrite Hmodel.
  eexists _, _, _. split; [reflexivity|]. split; [reflexivity|].
  cbn [params]. unfold decay_params, nodecay_params.
  rewrite param_dict_trainable, (dict_of_items_distinct named Hnd).
  now rewrite !filter_twice.
Qed.

End OptimizerShape.


Lemma groups_hold_only_trainable_witness :
  raw_model ddp_Trainer = Some tiny_model /\
  exists opt,
    _get_optimizer sample_Runtime ddp_Trainer 0.1 6e-4 = Ok opt /\
    forall g p, In g (param_groups opt) -> In p (params g) ->
                requires_grad p = true /\ exists n, In (n, p) tiny_model.
Proof.
  split; [reflexivity|].
  apply (groups_hold_only_trainable sample_Runtime ddp_Trainer tiny_model).
  reflexivity.
Defined.

Lemma groups_keep_model_order_witness :
  (raw_model ddp_Trainer = Some tiny_model /\ NoDup (map fst tiny_model)) /\
  exists opt g_decay g_nodecay,
    _get_optimizer sample_Runtime ddp_Trainer 0.1 6e-4 = Ok opt /\
    param_groups opt = [g_decay; g_nodecay] /\
    params g_decay
    = map snd (filter (fun kv => requires_grad (snd kv)
                                 && (2 <=? dim (snd kv))%nat) tiny_model) /\
    params g_nodecay
    = map snd (filter (fun kv => requires_grad (snd kv)
                                 && (dim (snd kv) <? 2)%nat) tiny_model).
Proof.
  assert (Hnd : NoDup (map fst tiny_model)).
  { repeat constructor; simpl; intuition discriminate. }
  split; [split; [reflexivity | exact Hnd]|].
  apply (groups_keep_model_order sample_Runtime ddp_Trainer tiny_model);
    [reflexivity | exact Hnd].
Defined.

(** ** The schedule on the indices the loop produces *)



